(** * Get-Fit: streak leaderboard, calendar bucketing and lookup tables

    A shallow embedding of the logic found in the React components of the
    Get-Fit frontend (FriendsTab.js, StreakCalendar.js, Dashboard.js,
    ActivityLogger.js), together with a model of the streak calculator whose
    code lives in the backend and is described only by the specification. *)

From stdpp Require Import gmap strings list sorting.
From Stdlib Require Import ZArith Lia.

Local Open Scope Z_scope.

(** ** The fragment of JavaScript the components rely on *)

Module Js.

(** A JS number restricted to what the components compute with: NaN, or a
    double whose value is an integer, [Fin z]; [Fin (2^1024)] and
    [Fin (- 2^1024)] stand for the two infinities, 2^1024 being the value at
    which rounding to a double overflows. (The sign of zero is not kept: the
    components only test a zero for truthiness.) *)
Inductive num : Type :=
  | NaN
  | Fin (z : Z).

(** What [obj[key]] evaluates to for an object literal [obj]: an own
      property, a member inherited from [Object.prototype] (a function, or
      the prototype object itself for [__proto__]), or [undefined]. *)
Inductive member (A : Type) : Type :=
  | Own (a : A)
  | Inherited (key : string)
  | Missing.
Arguments Own {A} a.
Arguments Inherited {A} key.
Arguments Missing {A}.

(** The property names every object literal inherits from
      [Object.prototype]. *)
Definition object_prototype : list string :=
    [ "constructor"; "hasOwnProperty"; "isPrototypeOf";
      "propertyIsEnumerable"; "toLocaleString"; "toString"; "valueOf";
      "__proto__"; "__defineGetter__"; "__defineSetter__";
      "__lookupGetter__"; "__lookupSetter__" ]%string.

(** [obj[key]]: own properties first, then the prototype chain. *)
Definition get {A} (own : gmap string A) (key : string) : member A :=
    match own !! key with
    | Some a => Own a
    | None => if decide (key ∈ object_prototype) then Inherited key else Missing
    end.

(** ToNumber of a looked-up member of a table of numbers: [undefined]
      converts to NaN, and so does every member of [Object.prototype]
      (functions and the prototype object convert through their string
      form). *)
Definition to_number (m : member Z) : num :=
    match m with
    | Own z => Fin z
    | Inherited _ => NaN
    | Missing => NaN
    end.

Definition infinity : Z := 2 ^ 1024.

(** The double nearest to an integer: integers below 2^53 in magnitude are
    doubles; above, a double keeps 53 significant bits, so the integer is
    rounded to the nearest multiple of its unit in the last place, a tie
    going to the even multiple, and a result of 2^1024 or more is an
    infinity. *)
Definition round64 (z : Z) : Z :=
  let a := Z.abs z in
  if a <? 2 ^ 53 then z
  else
    let ulp := 2 ^ (Z.log2 a - 52) in
    let q := a `div` ulp in
    let r := a `mod` ulp in
    let q' := if 2 * r <? ulp then q
              else if ulp <? 2 * r then q + 1
              else if Z.even q then q else q + 1 in
    Z.sgn z * Z.min (q' * ulp) infinity.


(** [a * b] on numbers: the exact product rounded to a double; an infinity
    times zero is NaN. *)
Definition mul (a b : num) : num :=
  match a, b with
  | Fin x, Fin y =>
      if ((Z.abs x =? infinity) && (y =? 0)) || ((x =? 0) && (Z.abs y =? infinity))
      then NaN
      else Fin (round64 (x * y))
  | _, _ => NaN
  end.

(** Truthiness of a number: NaN and 0 are falsy. *)
Definition truthy_num (a : num) : bool :=
    match a with
    | NaN => false
    | Fin z => negb (z =? 0)
    end.

(** [a || b] on numbers. *)
Definition or_num (a b : num) : num :=
    if truthy_num a then a else b.

(** A value that is either a string or an object/function reached through
      the prototype chain (named by the key it was found under). *)
Inductive value : Type :=
  | Str (s : string)
  | Obj (key : string).

(** [m || d] where [m] is a looked-up member of a table of strings and [d]
      a string: the empty string and [undefined] are falsy, objects and
      functions are truthy. *)
Definition or_str (m : member string) (d : string) : value :=
    match m with
    | Own s => if String.eqb s "" then Str d else Str s
    | Inherited k => Obj k
    | Missing => Str d
    end.

(** Truthiness of a string: only the empty string is falsy. *)
Definition truthy_string (s : string) : bool := negb (String.eqb s "").

(** [a > b] on numbers: false as soon as one side is NaN. *)
Definition gt (a b : num) : bool :=
  match a, b with
  | Fin x, Fin y => y <? x
  | _, _ => false
  end.

End Js.

(** ** ActivityLogger.js *)

Module ActivityLogger.

Definition caloriesPerMinute : gmap string Z :=
    <["gym" := 8]> (<["run" := 12]> (<["walk" := 4]> (<["yoga" := 3]> ∅))).

(** [caloriesPerMinute[type] * duration || 0] *)
Definition getEstimatedCalories (type : string) (duration : Js.num) : Js.num :=
    Js.or_num (Js.mul (Js.to_number (Js.get caloriesPerMinute type)) duration)
              (Js.Fin 0).

(** The rate table as the claim words it. *)
Definition rate (type : string) : option Z :=
    if String.eqb type "gym" then Some 8
    else if String.eqb type "run" then Some 12
    else if String.eqb type "walk" then Some 4
    else if String.eqb type "yoga" then Some 3
    else None.

(** The [value]s of the [activityTypes] table: the types the form offers as
    radio buttons. *)
Definition activityTypes : list string := ["gym"; "run"; "walk"; "yoga"].

Section form.

(** The global [parseInt] applied to a form field. *)
Variable parseInt : string → Js.num.

(** [formData.activity_type && formData.duration_minutes
      ? getEstimatedCalories(formData.activity_type,
                             parseInt(formData.duration_minutes) || 0)
      : 0] *)
Definition estimatedCalories (activity_type duration_minutes : string) : Js.num :=
  if Js.truthy_string activity_type && Js.truthy_string duration_minutes
  then getEstimatedCalories activity_type
         (Js.or_num (parseInt duration_minutes) (Js.Fin 0))
  else Js.Fin 0.

(** The line with the estimate is drawn when [estimatedCalories > 0]. *)
Definition showsEstimate (activity_type duration_minutes : string) : bool :=
  Js.gt (estimatedCalories activity_type duration_minutes) (Js.Fin 0).

End form.

(** [disabled={loading || !formData.activity_type || !formData.duration_minutes}]
    on the submit button. *)
Definition submitDisabled (loading : bool) (activity_type duration_minutes : string) : bool :=
  loading || negb (Js.truthy_string activity_type)
          || negb (Js.truthy_string duration_minutes).

End ActivityLogger.

(** ** getActivityIcon (StreakCalendar.js and Dashboard.js) *)

Module Icons.

Section table.
Variables (gym run walk yoga fallback : string).

Definition icons : gmap string string :=
      <["gym" := gym]> (<["run" := run]> (<["walk" := walk]> (<["yoga" := yoga]> ∅))).

    (** [icons[type] || fallback] *)
Definition getActivityIcon (type : string) : Js.value :=
      Js.or_str (Js.get icons type) fallback.
End table.

End Icons.

Module StreakCalendarIcons.
Definition gym : string := "🏋️‍♂️".
Definition run : string := "🏃‍♂️".
Definition walk : string := "🚶‍♂️".
Definition yoga : string := "🧘‍♂️".
Definition fallback : string := "🏃‍♂️".
Definition getActivityIcon : string → Js.value :=
    Icons.getActivityIcon gym run walk yoga fallback.
End StreakCalendarIcons.

(** Dashboard.js carries the same function over a table whose literals were
    saved in another encoding. *)
Module DashboardIcons.
Definition gym : string := "üèãÔ∏è‚Äç‚ôÇÔ∏è".
Definition run : string := "üèÉ‚Äç‚ôÇÔ∏è".
Definition walk : string := "üö∂‚Äç‚ôÇÔ∏è".
Definition yoga : string := "üßò‚Äç‚ôÇÔ∏è".
Definition fallback : string := "üèÉ‚Äç‚ôÇÔ∏è".
Definition getActivityIcon : string → Js.value :=
    Icons.getActivityIcon gym run walk yoga fallback.
End DashboardIcons.

(** ** FriendsTab.js: the friends list and the streak leaderboard *)

Module FriendsTab.

(** One element of the array the friends endpoint returns. *)
Record Friend : Type := {
  id : Z;
  name : string;
  current_streak : Z;
  longest_streak : Z
}.

(** [Array.prototype.sort(compareFn)]: the language fixes the result for a
    consistent comparator (sorted by [compareFn], elements comparing equal
    keep their order), not the algorithm; a stable insertion sort computes
    that result. *)
Section sort.
Context {A : Type} (compareFn : A → A → Z).

Fixpoint place (x : A) (l : list A) : list A :=
  match l with
  | [] => [x]
  | y :: l' => if 0 <? compareFn x y then y :: place x l' else x :: y :: l'
  end.

Definition sort (l : list A) : list A := foldr place [] l.

End sort.

(** [(a, b) => b.current_streak - a.current_streak] *)
Definition compareStreak (a b : Friend) : Z :=
  current_streak b - current_streak a.

(** What one render of the component shows: the cards of the friends list
    (line 172, [friends.map]) and the rows of the leaderboard preview
    (lines 272-275); a row's rank is its position plus one. *)
Record View : Type := {
  buddies : list Friend;
  leaderboard : list Friend
}.

(** One render over the [friends] state array. The friends list is read
    first; the leaderboard then calls [friends.sort(...)], which sorts the
    state array itself and returns it, and [.slice(0, 3)] copies its first
    three elements. The result pairs the array as the render leaves it with
    what is shown. *)
Definition render (friends : list Friend) : list Friend * View :=
  let shown := friends in
  match friends with
  | [] => (friends, {| buddies := shown; leaderboard := [] |})
  | _ :: _ =>
      let sorted := sort compareStreak friends in
      (sorted, {| buddies := shown; leaderboard := take 3 sorted |})
  end.

(** The array after a render, and the leaderboard rows of a render. *)
Definition friends_after (friends : list Friend) : list Friend :=
  fst (render friends).

Definition rank (friends : list Friend) : list Friend :=
  leaderboard (snd (render friends)).

(** The contract of [sort] for a comparator: a rearrangement of the input,
    ordered by the comparator, in which the elements of equal
    [current_streak] keep the order they had. *)
Definition sort_contract (l r : list Friend) : Prop :=
  r ≡ₚ l ∧
  Sorted (λ a b, compareStreak a b ≤ 0) r ∧
  ∀ k, filter (λ f, current_streak f = k) r = filter (λ f, current_streak f = k) l.

(** [getStreakEmoji]: the badge on a friend's card. *)
Definition getStreakEmoji (streak : Z) : string :=
  if 30 <=? streak then "🏆"
  else if 14 <=? streak then "🔥"
  else if 7 <=? streak then "⚡"
  else if 3 <=? streak then "💪"
  else "🌱".

Global Instance Friend_eq_dec : EqDecision Friend.
Proof. solve_decision. Defined.

End FriendsTab.

(** ** StreakCalendar.js: which days of the month carry an activity *)

Module StreakCalendar.

Record Activity : Type := {
  id : Z;
  activity_type : string;
  date : string;
  duration_minutes : Z
}.

Section clock.

(** The browser's clock and the date library, as far as the component uses
    them. Instants are milliseconds since the epoch; [None] is the Invalid
    Date. [parseDate s] is [new Date(s)]; [dayOf t] numbers the local
    calendar day of instant [t] and [midnight d] is the instant at which
    local day [d] begins; [startOfMonth], [endOfMonth] are date-fns's. *)
Variable parseDate : string → option Z.
Variables dayOf midnight : Z → Z.
Variables startOfMonth endOfMonth : Z → Z.

Definition startOfDay (t : Z) : Z := midnight (dayOf t).

(** date-fns [isSameDay]: the two starts of day are the same instant; an
    Invalid Date is on no day. *)
Definition isSameDay (l r : option Z) : bool :=
  match l, r with
  | Some a, Some b => startOfDay a =? startOfDay b
  | _, _ => false
  end.

(** date-fns [eachDayOfInterval]: the start of every local day from the day
    of [start] to the day of [stop]. (For a reversed interval date-fns
    throws; the list is empty here. The component only passes the start and
    the end of one month.) *)
Definition eachDayOfInterval (start stop : Z) : list Z :=
  midnight <$> seqZ (dayOf start) (dayOf stop - dayOf start + 1).

Definition getDaysInMonth (currentMonth : Z) : list Z :=
  eachDayOfInterval (startOfMonth currentMonth) (endOfMonth currentMonth).

Definition hasActivityOnDate (activities : list Activity) (day : Z) : bool :=
  existsb (λ activity, isSameDay (parseDate (date activity)) (Some day)) activities.

Definition getActivitiesForDate (activities : list Activity) (day : Z) : list Activity :=
  List.filter (λ activity, isSameDay (parseDate (date activity)) (Some day)) activities.

(** One cell of the calendar grid (lines 172-195). *)
Record Cell : Type := {
  day : Z;
  hasActivity : bool;
  isToday : bool;
  dayActivities : list Activity
}.

Definition calendar (activities : list Activity) (currentMonth today : Z) : list Cell :=
  (λ d, {| day := d;
           hasActivity := hasActivityOnDate activities d;
           isToday := isSameDay (Some d) (Some today);
           dayActivities := getActivitiesForDate activities d |})
  <$> getDaysInMonth currentMonth.

(** The days drawn as active: the cells given the [has-activity] class. *)
Definition activeDays (activities : list Activity) (currentMonth today : Z) : list Z :=
  day <$> List.filter hasActivity (calendar activities currentMonth today).

(** [Date.prototype.getDay]: the local weekday of an instant, 0 (Sunday) to
    6. *)
Variable getDay : Z → Z.

(** The number of empty cells drawn before the first day,
    [days[0].getDay()]; reading [days[0]] of an empty list throws. *)
Definition leadingBlanks (days : list Z) : option Z :=
  getDay <$> head days.

(** The grid has seven columns and is filled row by row with the empty
    cells and then the days: the column (0 under Sun to 6 under Sat) taken by
    the day at index [i]. *)
Definition gridColumn (days : list Z) (i : nat) : option Z :=
  (λ blanks, (blanks + Z.of_nat i) `mod` 7) <$> leadingBlanks days.

(** The class a cell is drawn with: activity first, then today. *)
Inductive CellClass : Type :=
| HasActivityClass
| TodayClass
| PlainClass.

Definition cellClass (c : Cell) : CellClass :=
  if hasActivity c then HasActivityClass
  else if isToday c then TodayClass
  else PlainClass.

(** The tooltip of a cell: the number of activities and their types, or the
    empty title ([None]) when there are none. *)
Definition title (c : Cell) : option (nat * list string) :=
  if (0 <? length (dayActivities c))%nat
  then Some (length (dayActivities c), activity_type <$> dayActivities c)
  else None.

End clock.

(** [new Date(year, monthIndex)] as the component reads it back: the pair
    ([getFullYear()], [getMonth()]) of the first day of the month named. A
    year from 0 to 99 stands for 1900 + year, and a month index outside 0 to
    11 carries into the year. (Dates are limited to some 275 000 years
    around 1970; the model does not cut off there.) *)
Definition newDate (year monthIndex : Z) : Z * Z :=
  let yr := if (0 <=? year) && (year <=? 99) then 1900 + year else year in
  (yr + monthIndex `div` 12, monthIndex `mod` 12).

(** [previousMonth] and [nextMonth], on the year and month of
    [currentMonth]. *)
Definition previousMonth (currentMonth : Z * Z) : Z * Z :=
  newDate (fst currentMonth) (snd currentMonth - 1).

Definition nextMonth (currentMonth : Z * Z) : Z * Z :=
  newDate (fst currentMonth) (snd currentMonth + 1).

Global Instance Activity_eq_dec : EqDecision Activity.
Proof. solve_decision. Defined.

End StreakCalendar.

(** ** The streak calculator and its cache *)

Module StreakCalculator.

(** Modelled from the spec: the StreakState record of the data model; the
    backend that computes streaks is not among the sources. Dates are
    calendar days numbered consecutively. [user_id] and [updated_at] are
    left out: one user is modelled, and the time stamp is diagnostic only. *)
Record StreakState : Type := {
  current_streak : nat;
  longest_streak : nat;
  last_active_date : option Z
}.

(** Modelled from the spec: the zeroed state a user has before any
    activity, which the cache's [get] creates when none is stored. *)
Definition zero_state : StreakState :=
  {| current_streak := 0; longest_streak := 0; last_active_date := None |}.

(** Modelled from the spec: what the single ascending scan of the full
    recomputation carries along: the previous date, the running counter of
    consecutive days and the largest counter seen. *)
Record Scan : Type := {
  prev : option Z;
  counter : nat;
  best : nat
}.

Definition scan_start : Scan :=
  {| prev := None; counter := 0; best := 0 |}.

(** Modelled from the spec: one step of the scan. The counter grows when the
    next date is exactly one day after the previous one and restarts at 1 on
    a gap or at the start of the sequence. *)
Definition scan_step (s : Scan) (d : Z) : Scan :=
  let c := match prev s with
           | Some p => if d =? p + 1 then S (counter s) else 1%nat
           | None => 1%nat
           end in
  {| prev := Some d; counter := c; best := Nat.max (best s) c |}.

Definition scan (activeDays : list Z) : Scan :=
  fold_left scan_step activeDays scan_start.

(** Modelled from the spec: [compute(activeDays, today)], the full
    recomputation. The trailing counter is the current streak only if the
    last active date is [today] or the day before; the result is the pair
    (current_streak, longest_streak). *)
Definition compute (activeDays : list Z) (today : Z) : nat * nat :=
  let s := scan activeDays in
  let current := match prev s with
                 | Some l => if (l =? today) || (l =? today - 1)
                             then counter s else 0%nat
                 | None => 0%nat
                 end in
  (current, best s).

Inductive Error : Type :=
| OutOfOrderActivity.

(** Modelled from the spec: [applyNewActivity(state, newDay, today)], the
    incremental path, case by case as the contract lists them; a day earlier
    than the last active date is refused. *)
Definition applyNewActivity (state : StreakState) (newDay today : Z)
  : StreakState + Error :=
  match last_active_date state with
  | None =>
      inl {| current_streak := 1;
             longest_streak := Nat.max (longest_streak state) 1;
             last_active_date := Some newDay |}
  | Some l =>
      if newDay =? l then inl state
      else if newDay =? l + 1 then
        let c := S (current_streak state) in
        inl {| current_streak := c;
               longest_streak := Nat.max (longest_streak state) c;
               last_active_date := Some newDay |}
      else if l + 1 <? newDay then
        inl {| current_streak := 1;
               longest_streak := longest_streak state;
               last_active_date := Some newDay |}
      else inr OutOfOrderActivity
  end.

(** Modelled from the spec: a user's side of the system, the ascending
    duplicate-free set of active days held by the record store and the
    cached StreakState. *)
Record System : Type := {
  store : list Z;
  cache : StreakState
}.

(** Modelled from the spec: adding a day to the ascending set of active
    days; a day already present is not added again. *)
Fixpoint add_day (d : Z) (days : list Z) : list Z :=
  match days with
  | [] => [d]
  | x :: rest =>
      if d <? x then d :: x :: rest
      else if d =? x then x :: rest
      else x :: add_day d rest
  end.

(** Modelled from the spec: the state a full recomputation writes to the
    cache. *)
Definition recompute (days : list Z) (today : Z) : StreakState :=
  let '(c, b) := compute days today in
  {| current_streak := c; longest_streak := b; last_active_date := last days |}.

(** Modelled from the spec: [recordActivity]: the incremental path, with the
    mandatory fall back to full recomputation for an out-of-order day. *)
Definition recordActivity (sys : System) (newDay today : Z) : System :=
  let days := add_day newDay (store sys) in
  match applyNewActivity (cache sys) newDay today with
  | inl s => {| store := days; cache := s |}
  | inr OutOfOrderActivity => {| store := days; cache := recompute days today |}
  end.

(** Modelled from the spec: the refresh by full recomputation (backfill,
    correction, cache invalidation). *)
Definition refresh (sys : System) (today : Z) : System :=
  {| store := store sys; cache := recompute (store sys) today |}.

Definition initial : System :=
  {| store := []; cache := zero_state |}.

(** The states the system produces: from the zeroed state, by any sequence
    of recorded activities and refreshes. *)
Inductive reachable : System → Prop :=
| reach_initial : reachable initial
| reach_record sys newDay today :
    reachable sys → reachable (recordActivity sys newDay today)
| reach_refresh sys today :
    reachable sys → reachable (refresh sys today).

(** [getStreak]: the pair the system exposes. *)
Definition getStreak (sys : System) : nat * nat :=
  (current_streak (cache sys), longest_streak (cache sys)).

(** What the scan maintains: the running counter never exceeds the largest
    counter seen, and once a date has been scanned that largest counter is
    at least 1. *)
Definition scan_ok (s : Scan) : Prop :=
  (counter s ≤ best s)%nat ∧ (is_Some (prev s) → (1 ≤ best s)%nat).

(** The same for a cached state. *)
Definition state_ok (s : StreakState) : Prop :=
  (current_streak s ≤ longest_streak s)%nat ∧
  (is_Some (last_active_date s) → (1 ≤ longest_streak s)%nat).

(** A run of consecutive days: each date one day after the one before. *)
Fixpoint consecutive (run : list Z) : bool :=
  match run with
  | a :: rest =>
      match rest with
      | b :: _ => (b =? a + 1) && consecutive rest
      | [] => true
      end
  | [] => true
  end.

(** [run] is the trailing consecutive run of [pre ++ run]: it is a non-empty
    run of consecutive days, and the day before it (if any) does not extend
    it. *)
Definition trailing_run (pre run : list Z) : Prop :=
  run ≠ [] ∧ consecutive run = true ∧
  match last pre, head run with
  | Some p, Some h => h ≠ p + 1
  | _, _ => True
  end.

(** Days of January 2024, counted from the epoch. *)
Definition jan (d : Z) : Z := 19723 + (d - 1).

End StreakCalculator.

(** ** Dashboard.js: colours and relative dates *)

Module Dashboard.

Definition colors : gmap string string :=
  <["gym" := "bg-purple-100 text-purple-800"]>
  (<["run" := "bg-blue-100 text-blue-800"]>
  (<["walk" := "bg-green-100 text-green-800"]>
  (<["yoga" := "bg-pink-100 text-pink-800"]> ∅))).

(** [colors[type] || 'bg-gray-100 text-gray-800'] *)
Definition getActivityColor (type : string) : Js.value :=
  Js.or_str (Js.get colors type) "bg-gray-100 text-gray-800".

(** What [formatDate] returns: one of the fixed texts, the texts built from
    a number of hours or days, or the result of [toLocaleDateString]. *)
Inductive Label : Type :=
| JustNow
| HoursAgo (hours : Z)
| Yesterday
| DaysAgo (days : Z)
| LocaleDate.

(** [formatDate(dateString)] at the instant [now]; [date] is
    [new Date(dateString)], [None] for the Invalid Date, with which every
    comparison is false. [Math.floor] of a quotient is [`div`]. *)
Definition formatDate (now : Z) (date : option Z) : Label :=
  match date with
  | None => LocaleDate
  | Some t =>
      let diffInHours := (now - t) `div` (1000 * 60 * 60) in
      if diffInHours <? 1 then JustNow
      else if diffInHours <? 24 then HoursAgo diffInHours
      else
        let diffInDays := diffInHours `div` 24 in
        if diffInDays =? 1 then Yesterday
        else if diffInDays <? 7 then DaysAgo diffInDays
        else LocaleDate
  end.

End Dashboard.

(** ** Sample data *)

Module Samples.
Import FriendsTab.

Definition ana : Friend :=
  {| id := 1; name := "ana"; current_streak := 5; longest_streak := 8 |}.
Definition ben : Friend :=
  {| id := 2; name := "ben"; current_streak := 5; longest_streak := 10 |}.
Definition cleo : Friend :=
  {| id := 3; name := "cleo"; current_streak := 7; longest_streak := 7 |}.
Definition dan : Friend :=
  {| id := 4; name := "dan"; current_streak := 2; longest_streak := 9 |}.

(** A clock for a browser in UTC, and the dates of three activities: two on
    2 January 2024 and one whose date does not parse. *)
Definition utc_dayOf (t : Z) : Z := t / 86400000.
Definition utc_midnight (d : Z) : Z := d * 86400000.
Definition january_start (_ : Z) : Z := 1704067200000.
Definition january_end (_ : Z) : Z := 1706745599999.
Definition utc_getDay (t : Z) : Z := (t / 86400000 + 4) `mod` 7.

Definition parse_sample (s : string) : option Z :=
  if String.eqb s "2024-01-02T08:00:00Z" then Some 1704182400000
  else if String.eqb s "2024-01-02T19:30:00Z" then Some 1704223800000
  else None.

Definition activities : list StreakCalendar.Activity :=
  [ {| StreakCalendar.id := 1; StreakCalendar.activity_type := "run";
       StreakCalendar.date := "2024-01-02T08:00:00Z";
       StreakCalendar.duration_minutes := 30 |};
    {| StreakCalendar.id := 2; StreakCalendar.activity_type := "yoga";
       StreakCalendar.date := "2024-01-02T19:30:00Z";
       StreakCalendar.duration_minutes := 20 |};
    {| StreakCalendar.id := 3; StreakCalendar.activity_type := "gym";
       StreakCalendar.date := "";
       StreakCalendar.duration_minutes := 45 |} ].

(** A [parseInt] that knows the field values "30" and "-5". *)
Definition parse_minutes (s : string) : Js.num :=
  if String.eqb s "30" then Js.Fin 30
  else if String.eqb s "-5" then Js.Fin (-5)
  else Js.NaN.

(** The cells of 2 and 3 January in the calendar of the sample activities,
    seen on 3 January. *)
Definition morning_run : StreakCalendar.Activity :=
  {| StreakCalendar.id := 1; StreakCalendar.activity_type := "run";
     StreakCalendar.date := "2024-01-02T08:00:00Z";
     StreakCalendar.duration_minutes := 30 |}.

Definition jan2_cell : StreakCalendar.Cell :=
  {| StreakCalendar.day := 1704153600000;
     StreakCalendar.hasActivity := true;
     StreakCalendar.isToday := false;
     StreakCalendar.dayActivities := take 2 activities |}.

Definition jan3_cell : StreakCalendar.Cell :=
  {| StreakCalendar.day := 1704240000000;
     StreakCalendar.hasActivity := false;
     StreakCalendar.isToday := true;
     StreakCalendar.dayActivities := [] |}.

End Samples.

(** * Properties *)

(** ** Lookup tables *)

Section tables.
Import Js.

(** Case analysis on the next comparison of a key with a literal. *)
Ltac case_key :=
  match goal with
  | |- context [String.eqb ?t ?k] => destruct (String.eqb_spec t k) as [->|?]
  | H : context [String.eqb ?t ?k] |- _ => destruct (String.eqb_spec t k) as [->|?]
  end.

(** The rate table of the source and the rates the claim lists agree. *)
Lemma caloriesPerMinute_rate type :
  ActivityLogger.caloriesPerMinute !! type = ActivityLogger.rate type.
Proof.
  unfold ActivityLogger.caloriesPerMinute, ActivityLogger.rate.
  repeat (case_key; [ by simplify_map_eq | rewrite lookup_insert_ne by done ]).
  apply lookup_empty.
Qed.

Lemma to_number_rate type :
  to_number (get ActivityLogger.caloriesPerMinute type) =
  match ActivityLogger.rate type with Some r => Fin r | None => NaN end.
Proof.
  unfold get. rewrite caloriesPerMinute_rate.
  destruct (ActivityLogger.rate type); [done|]. by case_decide.
Qed.

Lemma infinity_pos : 0 < infinity.
Proof. by apply Z.pow_pos_nonneg. Qed.

Lemma round64_0 : round64 0 = 0.
Proof. reflexivity. Qed.

(** Below 2^53 every integer is a double. *)
Lemma round64_small z : Z.abs z < 2 ^ 53 → round64 z = z.
Proof.
  intros Hz. unfold round64. by destruct (Z.ltb_spec (Z.abs z) (2 ^ 53)); [|lia].
Qed.

(** From 2^53 on, the rounded magnitude is positive. *)
Lemma round64_large a :
  2 ^ 53 ≤ a →
  let ulp := 2 ^ (Z.log2 a - 52) in
  let q := a `div` ulp in
  let r := a `mod` ulp in
  let q' := if 2 * r <? ulp then q
            else if ulp <? 2 * r then q + 1
            else if Z.even q then q else q + 1 in
  0 < Z.min (q' * ulp) infinity.
Proof.
  intros Ha ulp q r q'.
  assert (0 < a) as Hpos by (pose proof (Z.pow_pos_nonneg 2 53); lia).
  assert (53 ≤ Z.log2 a) as Hlog.
  { rewrite <- (Z.log2_pow2 53) by lia. by apply Z.log2_le_mono. }
  assert (0 < ulp) as Hulp by (apply Z.pow_pos_nonneg; lia).
  assert (ulp ≤ a) as Hle.
  { etrans; [|apply Z.log2_spec; lia]. apply Z.pow_le_mono_r; lia. }
  assert (1 ≤ q) as Hq by (apply Z.div_le_lower_bound; lia).
  assert (q ≤ q') as Hq'.
  { subst q'. destruct (2 * r <? ulp); [lia|].
    destruct (ulp <? 2 * r); [lia|]. destruct (Z.even q); lia. }
  pose proof infinity_pos. apply Z.min_glb_lt; [|done].
  apply Z.mul_pos_pos; lia.
Qed.

(** Rounding keeps the sign. *)
Lemma round64_pos z : 0 < round64 z ↔ 0 < z.
Proof.
  unfold round64. destruct (Z.ltb_spec (Z.abs z) (2 ^ 53)) as [|Hbig]; [done|].
  pose proof (round64_large (Z.abs z) Hbig) as Hmin. cbv zeta in Hmin.
  destruct (Z.lt_total 0 z) as [Hz|[<-|Hz]].
  - rewrite (Z.sgn_pos z Hz). lia.
  - simpl in Hbig. pose proof (Z.pow_pos_nonneg 2 53). lia.
  - rewrite (Z.sgn_neg z Hz). lia.
Qed.

Lemma rate_values type r :
  ActivityLogger.rate type = Some r → r = 8 ∨ r = 12 ∨ r = 4 ∨ r = 3.
Proof.
  unfold ActivityLogger.rate. repeat (case_key; [intros [= <-]; tauto|]). done.
Qed.

(** A rate is neither zero nor infinite, so its product with any number is
    the rounded product. *)
Lemma mul_rate type r d :
  ActivityLogger.rate type = Some r → mul (Fin r) (Fin d) = Fin (round64 (r * d)).
Proof.
  intros Hr. unfold mul.
  assert ((Z.abs r =? infinity) = false ∧ (r =? 0) = false) as [-> ->]
    by (destruct (rate_values type r Hr) as [-> | [-> | [-> | ->]]]; by vm_compute).
  done.
Qed.

Lemma getEstimatedCalories_value type d :
  ActivityLogger.getEstimatedCalories type (Fin d) =
  Fin (match ActivityLogger.rate type with
       | Some r => round64 (r * d)
       | None => 0
       end).
Proof.
  unfold ActivityLogger.getEstimatedCalories. rewrite to_number_rate.
  destruct (ActivityLogger.rate type) as [r|] eqn:Hr; [|done].
  rewrite (mul_rate type r d Hr). unfold or_num, truthy_num.
  by destruct (Z.eqb_spec (round64 (r * d)) 0) as [->|].
Qed.



(** Beyond 2^53 the estimate is the rounded product: twelve times
    9007199254740991 is 108086391056891892, and the double nearest to it is
    108086391056891888. *)
Example estimate_beyond_2_53 :
  ActivityLogger.getEstimatedCalories "run" (Fin 9007199254740991)
  = Fin 108086391056891888.
Proof. by vm_compute. Qed.

Lemma icons_lookup gym run walk yoga type :
  Icons.icons gym run walk yoga !! type =
  if String.eqb type "gym" then Some gym
  else if String.eqb type "run" then Some run
  else if String.eqb type "walk" then Some walk
  else if String.eqb type "yoga" then Some yoga
  else None.
Proof.
  unfold Icons.icons.
  repeat (case_key; [ by simplify_map_eq | rewrite lookup_insert_ne by done ]).
  apply lookup_empty.
Qed.

(** Outside the four table keys and the names inherited from
    [Object.prototype], the fallback icon is returned. *)
Lemma getActivityIcon_fallback gym run walk yoga fallback type :
  type ∉ ["gym"; "run"; "walk"; "yoga"]%string →
  type ∉ object_prototype →
  Icons.getActivityIcon gym run walk yoga fallback type = Str fallback.
Proof.
  intros Hkey Hproto. unfold Icons.getActivityIcon, get.
  rewrite icons_lookup.
  repeat (case_key; [by apply (bool_decide_pack _) in Hkey|]).
  by rewrite decide_False.
Qed.

(** For a name inherited from [Object.prototype], the inherited member is
    returned, whatever the table and the fallback hold. *)
Lemma getActivityIcon_inherited gym run walk yoga fallback type :
  type ∈ object_prototype →
  Icons.getActivityIcon gym run walk yoga fallback type = Obj type.
Proof.
  intros Hproto. unfold Icons.getActivityIcon, get.
  rewrite icons_lookup.
  repeat (case_key; [by apply (bool_decide_pack _) in Hproto|]).
  by rewrite decide_True.
Qed.

(** C9. getActivityIcon does not return an icon for every type string: for
    the type "constructor", which is none of gym, run, walk, yoga, both
    copies of the function return the member the table inherits from
    [Object.prototype] and not the default running icon. *)
Theorem getActivityIcon_constructor :
  ("constructor" ∉ ["gym"; "run"; "walk"; "yoga"]%string) ∧
  StreakCalendarIcons.getActivityIcon "constructor" = Obj "constructor" ∧
  (StreakCalendarIcons.getActivityIcon "constructor" ≠ Str StreakCalendarIcons.fallback) ∧
  DashboardIcons.getActivityIcon "constructor" = Obj "constructor" ∧
  (DashboardIcons.getActivityIcon "constructor" ≠ Str DashboardIcons.fallback).
Proof.
  split; [by apply (bool_decide_unpack _)|].
  assert (Hproto : "constructor" ∈ object_prototype) by by apply (bool_decide_unpack _).
  unfold StreakCalendarIcons.getActivityIcon, DashboardIcons.getActivityIcon.
  rewrite !getActivityIcon_inherited by exact Hproto.
  by repeat split.
Qed.

End tables.

(** ** The leaderboard *)

Section leaderboard.
Import FriendsTab.

Local Abbreviation desc := (λ a b : Friend, compareStreak a b ≤ 0).
Local Abbreviation streak_is k := (λ f : Friend, current_streak f = k).

Lemma place_perm (x : Friend) l : place compareStreak x l ≡ₚ x :: l.
Proof.
  induction l as [|y l IH]; simpl; [done|].
  destruct (0 <? compareStreak x y); [|done].
  rewrite IH. apply Permutation_swap.
Qed.

Lemma sort_perm (l : list Friend) : sort compareStreak l ≡ₚ l.
Proof.
  induction l as [|x l IH]; simpl; [done|].
  rewrite place_perm. by rewrite IH.
Qed.

Lemma place_sorted (x : Friend) l :
  StronglySorted desc l → StronglySorted desc (place compareStreak x l).
Proof.
  induction 1 as [|y l Hl IH Hy]; simpl.
  - repeat constructor.
  - destruct (Z.ltb_spec 0 (compareStreak x y)) as [Hlt|Hge].
    + constructor; [done|].
      rewrite place_perm. constructor; [|done].
      unfold compareStreak in *. lia.
    + constructor; [by constructor|].
      constructor; [done|].
      eapply Forall_impl; [exact Hy|].
      intros z Hz. unfold compareStreak in *. simpl in *. lia.
Qed.

Lemma sort_sorted (l : list Friend) : StronglySorted desc (sort compareStreak l).
Proof.
  induction l as [|x l IH]; simpl; [constructor|]. by apply place_sorted.
Qed.

Lemma place_stable (x : Friend) l k :
  filter (streak_is k) (place compareStreak x l) = filter (streak_is k) (x :: l).
Proof.
  induction l as [|y l IH]; simpl; [done|].
  destruct (Z.ltb_spec 0 (compareStreak x y)) as [Hlt|Hge]; [|done].
  rewrite (filter_cons _ y), IH, !filter_cons.
  unfold compareStreak in Hlt.
  repeat case_decide; try done; lia.
Qed.

Lemma sort_stable (l : list Friend) k :
  filter (streak_is k) (sort compareStreak l) = filter (streak_is k) l.
Proof.
  induction l as [|x l IH]; simpl; [done|].
  rewrite place_stable, !filter_cons. by rewrite IH.
Qed.

Lemma sort_meets_contract (l : list Friend) : sort_contract l (sort compareStreak l).
Proof.
  split; [apply sort_perm|]. split; [|apply sort_stable].
  apply StronglySorted_Sorted, sort_sorted.
Qed.

Lemma sorted_strongly (l : list Friend) : Sorted desc l → StronglySorted desc l.
Proof.
  apply Sorted_StronglySorted. intros a b c. unfold compareStreak. simpl. lia.
Qed.

Lemma strongly_sorted_lookup (l : list Friend) i j a b :
  StronglySorted desc l → l !! i = Some a → l !! j = Some b → (i < j)%nat →
  current_streak b ≤ current_streak a.
Proof.
  intros Hs. revert i j.
  induction Hs as [|x l Hl IH Hx]; intros i j Hi Hj Hlt; [done|].
  destruct j as [|j]; [lia|]. simpl in Hj.
  destruct i as [|i]; simpl in Hi.
  - simplify_eq. rewrite Forall_forall in Hx.
    specialize (Hx b (list_elem_of_lookup_2 _ _ _ Hj)).
    unfold compareStreak in Hx. simpl in Hx. lia.
  - apply (IH i j); [done..|lia].
Qed.

(** Two arrangements ordered by streak whose equal-streak elements come in
    the same order are the same arrangement. *)
Lemma sorted_stable_unique (l1 l2 : list Friend) :
  StronglySorted desc l1 → StronglySorted desc l2 →
  (∀ k, filter (streak_is k) l1 = filter (streak_is k) l2) →
  l1 = l2.
Proof.
  intros H1. revert l2.
  induction H1 as [|a t1 Ht1 IH Ha]; intros l2 H2 Hf.
  - destruct l2 as [|b t2]; [done|].
    specialize (Hf (current_streak b)).
    rewrite filter_cons_True in Hf by done. done.
  - destruct H2 as [|b t2 Ht2 Hb].
    { specialize (Hf (current_streak a)).
      rewrite filter_cons_True in Hf by done. done. }
    assert (Heq : current_streak a = current_streak b).
    { destruct (decide (current_streak a = current_streak b)) as [|Hne]; [done|].
      exfalso.
      pose proof (Hf (current_streak a)) as Hfa.
      pose proof (Hf (current_streak b)) as Hfb.
      rewrite filter_cons_True, (filter_cons_False _ b) in Hfa by done.
      rewrite (filter_cons_False _ a), filter_cons_True in Hfb by done.
      assert (a ∈ t2) as Hin2.
      { eapply (list_elem_of_filter (streak_is (current_streak a))).
        rewrite <- Hfa. left. }
      assert (b ∈ t1) as Hin1.
      { eapply (list_elem_of_filter (streak_is (current_streak b))).
        rewrite Hfb. left. }
      rewrite Forall_forall in Ha, Hb.
      specialize (Ha b Hin1). specialize (Hb a Hin2).
      unfold compareStreak in *. simpl in *. lia. }
    pose proof (Hf (current_streak a)) as Hfa.
    rewrite filter_cons_True, (filter_cons_True _ b) in Hfa by done.
    injection Hfa as -> Htail. f_equal.
    apply IH; [done|]. intros k. specialize (Hf k).
    rewrite !filter_cons in Hf. case_decide; [by simplify_eq|done].
Qed.

Lemma contract_unique (l r : list Friend) :
  sort_contract l r → r = sort compareStreak l.
Proof.
  intros (_ & Hs & Hf).
  apply sorted_stable_unique; [by apply sorted_strongly | apply sort_sorted |].
  intros k. by rewrite Hf, sort_stable.
Qed.

Lemma sort_idempotent (l : list Friend) :
  sort compareStreak (sort compareStreak l) = sort compareStreak l.
Proof.
  symmetry. apply contract_unique.
  split; [done|]. split; [|done]. apply StronglySorted_Sorted, sort_sorted.
Qed.

Lemma friends_after_eq friends : friends_after friends = sort compareStreak friends.
Proof. by destruct friends. Qed.

Lemma rank_eq friends : rank friends = take 3 (sort compareStreak friends).
Proof. by destruct friends. Qed.

(** A render rearranges the state array but neither adds, drops nor alters a
    friend's record. *)
Lemma render_keeps_records friends : friends_after friends ≡ₚ friends.
Proof. rewrite friends_after_eq. apply sort_perm. Qed.

Lemma filter_take_prefix (P : Friend → Prop) `{∀ f, Decision (P f)} n (l : list Friend) :
  filter P (take n l) `prefix_of` filter P l.
Proof.
  exists (filter P (drop n l)). by rewrite <- filter_app, take_drop.
Qed.

(** C1 (as stated) fails: with ana (streak 5, longest 8) ahead of ben
    (streak 5, longest 10) in the friends array, ana is ranked ahead of ben,
    so it is not true of every friend list that the entry with the longer
    longest_streak comes first among equal current streaks. *)
Lemma tie_break_by_longest_streak_fails :
  ¬ (∀ friends a b i j,
       rank friends !! i = Some a → rank friends !! j = Some b →
       current_streak a = current_streak b →
       longest_streak a > longest_streak b →
       (i < j)%nat).
Proof.
  intros H.
  specialize (H [Samples.ana; Samples.ben] Samples.ben Samples.ana 1%nat 0%nat).
  vm_compute in H.
  assert (1 < 0)%nat as Hlt by (apply H; reflexivity).
  lia.
Qed.

(** C1 (amended). Entries of equal current_streak appear in the leaderboard
    in the order they have in the friends array: the comparator looks at
    current_streak only and the sort keeps ties in place. Neither
    longest_streak nor the user id takes part. *)
Theorem rank_ties_keep_array_order (friends : list Friend) (k : Z) :
  filter (streak_is k) (friends_after friends) = filter (streak_is k) friends ∧
  filter (streak_is k) (rank friends) `prefix_of` filter (streak_is k) friends.
Proof.
  rewrite friends_after_eq, rank_eq. split; [apply sort_stable|].
  rewrite <- (sort_stable friends k). apply filter_take_prefix.
Qed.

(** C4. Ranking does write: a render sorts the friends state array in
    place. From the array [dan; cleo] (streaks 2 and 7) the render leaves
    [cleo; dan] behind, so the friends list, drawn in array order, shows
    dan first on this render and cleo first on the next. *)
Theorem render_reorders_friends :
  friends_after [Samples.dan; Samples.cleo] = [Samples.cleo; Samples.dan] ∧
  friends_after [Samples.dan; Samples.cleo] ≠ [Samples.dan; Samples.cleo] ∧
  buddies (snd (render [Samples.dan; Samples.cleo])) = [Samples.dan; Samples.cleo] ∧
  buddies (snd (render (friends_after [Samples.dan; Samples.cleo])))
    = [Samples.cleo; Samples.dan].
Proof. by vm_compute. Qed.

(** C5. The leaderboard is in descending order of current_streak: every
    entry's current_streak is at least that of the entry after it. *)
Theorem rank_descending (friends : list Friend) (i : nat) (a b : Friend) :
  rank friends !! i = Some a →
  rank friends !! S i = Some b →
  current_streak b ≤ current_streak a.
Proof.
  rewrite rank_eq. intros Ha Hb.
  apply lookup_take_Some in Ha as [Ha _]. apply lookup_take_Some in Hb as [Hb _].
  eapply (strongly_sorted_lookup _ i (S i)); [apply sort_sorted|done..|lia].
Qed.

Lemma rank_descending_witness :
  current_streak Samples.ana ≤ current_streak Samples.cleo.
Proof.
  apply (rank_descending [Samples.dan; Samples.ana; Samples.cleo] 0);
    reflexivity.
Defined.

(** C6. Ranking is deterministic: the array a sort call may leave behind is
    fixed by the sort's contract (any two arrays meeting it for the same
    input are equal, ties included, whatever algorithm the engine runs); the
    leaderboard is the first three entries of that array; and a second
    render, run on the array the first one left behind, shows the same
    leaderboard. *)
Theorem rank_deterministic (friends r1 r2 : list Friend) :
  sort_contract friends r1 →
  sort_contract friends r2 →
  r1 = r2 ∧
  take 3 r1 = rank friends ∧
  rank (friends_after friends) = rank friends.
Proof.
  intros H1%contract_unique H2%contract_unique. subst r1 r2.
  split; [done|]. split; [by rewrite rank_eq|].
  by rewrite !rank_eq, friends_after_eq, sort_idempotent.
Qed.

Lemma rank_deterministic_witness :
  rank (friends_after [Samples.ana; Samples.cleo; Samples.ben])
  = rank [Samples.ana; Samples.cleo; Samples.ben].
Proof.
  apply (rank_deterministic [Samples.ana; Samples.cleo; Samples.ben]
           [Samples.cleo; Samples.ana; Samples.ben]
           [Samples.cleo; Samples.ana; Samples.ben]);
    exact (sort_meets_contract [Samples.ana; Samples.cleo; Samples.ben]).
Defined.

(** C7. The leaderboard never has more entries than there are friends (nor
    more than the three rows of the preview). *)
Theorem rank_length (friends : list Friend) :
  (length (rank friends) ≤ length friends)%nat ∧ (length (rank friends) ≤ 3)%nat.
Proof.
  rewrite rank_eq, length_take, (Permutation_length (sort_perm friends)). lia.
Qed.

End leaderboard.

(** ** The calendar *)

Section calendar.
Import StreakCalendar.

Variable parseDate : string → option Z.
Variables dayOf midnight : Z → Z.
Variables startOfMonth endOfMonth : Z → Z.
Hypothesis dayOf_midnight : ∀ d, dayOf (midnight d) = d.

Lemma startOfDay_inj a b :
  startOfDay dayOf midnight a = startOfDay dayOf midnight b ↔ dayOf a = dayOf b.
Proof.
  unfold startOfDay. split; [|by intros ->].
  intros H. apply (f_equal dayOf) in H. by rewrite !dayOf_midnight in H.
Qed.

Lemma isSameDay_true l r :
  isSameDay dayOf midnight l r = true ↔
  ∃ a b, l = Some a ∧ r = Some b ∧ dayOf a = dayOf b.
Proof.
  destruct l as [a|], r as [b|]; simpl;
    try (split; [done | by intros (?&?&?&?&?)]).
  rewrite Z.eqb_eq, startOfDay_inj. split.
  - intros Hd. by exists a, b.
  - intros (a' & b' & ? & ? & Hd). by simplify_eq.
Qed.

Lemma hasActivityOnDate_true activities d :
  hasActivityOnDate parseDate dayOf midnight activities d = true ↔
  ∃ activity t, activity ∈ activities ∧
                parseDate (date activity) = Some t ∧ dayOf t = dayOf d.
Proof.
  unfold hasActivityOnDate. rewrite existsb_exists. split.
  - intros (a & Hin & Hsame). apply isSameDay_true in Hsame as (t & d' & Ht & ? & Hd).
    simplify_eq. exists a, t. by rewrite list_elem_of_In.
  - intros (a & t & Hin & Ht & Hd). exists a. rewrite <- list_elem_of_In.
    split; [done|]. apply isSameDay_true. by exists t, d.
Qed.

Lemma getDaysInMonth_days currentMonth :
  NoDup (dayOf <$> getDaysInMonth dayOf midnight startOfMonth endOfMonth currentMonth).
Proof.
  unfold getDaysInMonth, eachDayOfInterval.
  rewrite <- list_fmap_compose.
  rewrite (list_fmap_ext (dayOf ∘ midnight) Datatypes.id), list_fmap_id.
  - apply NoDup_seqZ.
  - intros i x _. apply dayOf_midnight.
Qed.

Lemma activeDays_eq activities currentMonth today :
  activeDays parseDate dayOf midnight startOfMonth endOfMonth activities currentMonth today
  = List.filter (hasActivityOnDate parseDate dayOf midnight activities)
      (getDaysInMonth dayOf midnight startOfMonth endOfMonth currentMonth).
Proof.
  unfold activeDays, calendar.
  induction (getDaysInMonth _ _ _ _ _) as [|d days IH]; [done|].
  rewrite fmap_cons. cbn [List.filter hasActivity].
  destruct (hasActivityOnDate _ _ _ _ d); [rewrite fmap_cons; cbn [day]|];
    by rewrite IH.
Qed.

(** Whether a day has activity depends on its calendar day only. *)
Lemma hasActivityOnDate_same_day activities x y :
  dayOf x = dayOf y →
  hasActivityOnDate parseDate dayOf midnight activities x
  = hasActivityOnDate parseDate dayOf midnight activities y.
Proof.
  intros Hxy. unfold hasActivityOnDate, isSameDay, startOfDay. by rewrite Hxy.
Qed.

(** Among days on pairwise different calendar dates, a date is met once if
    it occurs and not at all otherwise. *)
Lemma count_on_day (v : Z) (l : list Z) :
  NoDup (dayOf <$> l) →
  length (filter (λ x, dayOf x = v) l)
  = if bool_decide (v ∈ dayOf <$> l) then 1%nat else 0%nat.
Proof.
  induction l as [|x l IH]; [done|].
  rewrite fmap_cons, NoDup_cons. intros [Hx Hl]. specialize (IH Hl).
  rewrite filter_cons. destruct (decide (dayOf x = v)) as [Hv|Hv].
  - subst v. cbn [length]. rewrite IH.
    rewrite (bool_decide_eq_false_2 _ Hx).
    by rewrite (bool_decide_eq_true_2 (dayOf x ∈ dayOf x :: (dayOf <$> l)))
      by left.
  - rewrite IH. apply (f_equal (λ b : bool, if b then 1%nat else 0%nat)).
    apply bool_decide_ext. rewrite elem_of_cons. split; [tauto|].
    intros [Heq|Hin]; [by symmetry in Heq|done].
Qed.

(** Keeping the days that pass a test which is constant on a calendar date
    keeps or drops the entries of that date together. *)
Lemma filter_on_day (p : Z → bool) (b : bool) (v : Z) (l : list Z) :
  (∀ x, dayOf x = v → p x = b) →
  filter (λ x, dayOf x = v) (List.filter p l)
  = if b then filter (λ x, dayOf x = v) l else [].
Proof.
  intros Hp. induction l as [|x l IH]; [by destruct b|].
  cbn [List.filter]. rewrite (filter_cons _ x l).
  destruct (p x) eqn:Hpx.
  - rewrite filter_cons, IH. case_decide as Hv; [|done].
    rewrite (Hp x Hv) in Hpx. by subst b.
  - rewrite IH. case_decide as Hv; [|done].
    rewrite (Hp x Hv) in Hpx. by subst b.
Qed.

(** C8. Day bucketing collapses duplicates: a day is active exactly when at
    least one activity has a valid date on that local calendar day; the
    active days drawn are the days of the displayed month for which that
    holds; and they hold a calendar date exactly once when the date lies in
    the month and has activity, however many activities fall on it, and not
    at all otherwise. *)
Theorem day_bucketing_collapses (activities : list Activity) (currentMonth today d : Z) :
  (hasActivityOnDate parseDate dayOf midnight activities d = true ↔
   ∃ activity t, activity ∈ activities ∧
                 parseDate (date activity) = Some t ∧ dayOf t = dayOf d) ∧
  (∀ x,
     x ∈ activeDays parseDate dayOf midnight startOfMonth endOfMonth
           activities currentMonth today ↔
     x ∈ getDaysInMonth dayOf midnight startOfMonth endOfMonth currentMonth ∧
     ∃ activity t, activity ∈ activities ∧
                   parseDate (date activity) = Some t ∧ dayOf t = dayOf x) ∧
  length
    (filter (λ x, dayOf x = dayOf d)
       (activeDays parseDate dayOf midnight startOfMonth endOfMonth
          activities currentMonth today))
  = if bool_decide
         (dayOf d ∈ dayOf <$> getDaysInMonth dayOf midnight startOfMonth
                                endOfMonth currentMonth)
       && hasActivityOnDate parseDate dayOf midnight activities d
    then 1%nat else 0%nat.
Proof.
  split; [apply hasActivityOnDate_true|]. rewrite activeDays_eq. split.
  - intros x. rewrite list_elem_of_In, filter_In, <- list_elem_of_In.
    by rewrite hasActivityOnDate_true.
  - rewrite (filter_on_day _ (hasActivityOnDate parseDate dayOf midnight activities d))
      by (intros x Hx; by apply hasActivityOnDate_same_day).
    destruct (hasActivityOnDate parseDate dayOf midnight activities d).
    + rewrite count_on_day by apply getDaysInMonth_days. by rewrite andb_true_r.
    + by rewrite andb_false_r.
Qed.

End calendar.

(** Two activities on 2 January and one without a valid date give a single
    active day. *)
Example activeDays_sample :
  StreakCalendar.activeDays Samples.parse_sample Samples.utc_dayOf
    Samples.utc_midnight Samples.january_start Samples.january_end
    Samples.activities 1704182400000 1704300000000
  = [1704153600000].
Proof. by vm_compute. Qed.

Lemma day_bucketing_collapses_witness :
  length
    (filter (λ x, Samples.utc_dayOf x = Samples.utc_dayOf 1704182400000)
       (StreakCalendar.activeDays Samples.parse_sample Samples.utc_dayOf
          Samples.utc_midnight Samples.january_start Samples.january_end
          Samples.activities 1704182400000 1704300000000))
  = 1%nat.
Proof.
  assert (∀ d, Samples.utc_dayOf (Samples.utc_midnight d) = d) as Hclock.
  { intros d. unfold Samples.utc_dayOf, Samples.utc_midnight.
    apply Z.div_mul. lia. }
  exact (proj2 (proj2
    (day_bucketing_collapses Samples.parse_sample Samples.utc_dayOf
       Samples.utc_midnight Samples.january_start Samples.january_end Hclock
       Samples.activities 1704182400000 1704300000000 1704182400000))).
Defined.

(** ** The streak calculator *)

Section streaks.
Import StreakCalculator.

Lemma scan_step_ok s d : scan_ok s → scan_ok (scan_step s d).
Proof.
  intros [Hc _]. unfold scan_ok, scan_step. simpl.
  destruct (prev s) as [p|]; [destruct (d =? p + 1)|]; split; intros; lia.
Qed.

Lemma fold_scan_ok days s : scan_ok s → scan_ok (fold_left scan_step days s).
Proof.
  revert s. induction days as [|d days IH]; intros s Hs; [done|].
  simpl. by apply IH, scan_step_ok.
Qed.

Lemma scan_ok_scan days : scan_ok (scan days).
Proof.
  apply fold_scan_ok. split; simpl; [lia|]. by intros [? ?].
Qed.

Lemma fold_scan_prev days s :
  prev (fold_left scan_step days s) =
  match last days with Some d => Some d | None => prev s end.
Proof.
  revert s. induction days as [|d days IH]; intros s; [done|].
  cbn [fold_left]. rewrite IH. destruct days as [|d' days]; [done|].
  change (last (d :: d' :: days)) with (last (d' :: days)).
  destruct (last (d' :: days)) eqn:E; [done|]. by apply last_None in E.
Qed.

Lemma scan_prev days : prev (scan days) = last days.
Proof. unfold scan. rewrite fold_scan_prev. by destruct (last days). Qed.

Lemma compute_ok days today :
  (fst (compute days today) ≤ snd (compute days today))%nat.
Proof.
  destruct (scan_ok_scan days) as [Hc _]. unfold compute. simpl.
  destruct (prev (scan days)) as [l|]; [|lia].
  destruct ((l =? today) || (l =? today - 1)); lia.
Qed.

Lemma recompute_ok days today : state_ok (recompute days today).
Proof.
  pose proof (compute_ok days today) as Hc.
  destruct (scan_ok_scan days) as [_ Hb]. rewrite scan_prev in Hb.
  unfold recompute, compute in *. split; simpl in *; [done|].
  exact Hb.
Qed.

Lemma applyNewActivity_ok state newDay today s :
  state_ok state → applyNewActivity state newDay today = inl s → state_ok s.
Proof.
  intros [Hc Hl]. unfold applyNewActivity.
  destruct (last_active_date state) as [l|] eqn:El.
  - specialize (Hl (mk_is_Some _ _ eq_refl)).
    repeat case_match; intros; simplify_eq; split; simpl;
      try rewrite El; intros; try done; lia.
  - intros; simplify_eq; split; simpl; intros; lia.
Qed.

Lemma reachable_ok sys : reachable sys → state_ok (cache sys).
Proof.
  induction 1 as [|sys newDay today _ IH|sys today _ IH].
  - split; simpl; [lia|]. by intros [? ?].
  - unfold recordActivity.
    destruct (applyNewActivity (cache sys) newDay today) as [s|[]] eqn:E; simpl.
    + by eapply applyNewActivity_ok.
    + apply recompute_ok.
  - apply recompute_ok.
Qed.

(** The restart after a gap leaves longest_streak as it is, so it relies on
    the history behind the state: a record with a last active date but a
    longest streak of 0, which no sequence of operations produces, would
    come out with current 1 above longest 0. *)
Example gap_restart_relies_on_history :
  applyNewActivity
    {| current_streak := 0; longest_streak := 0; last_active_date := Some (jan 1) |}
    (jan 5) (jan 5)
  = inl {| current_streak := 1; longest_streak := 0; last_active_date := Some (jan 5) |}.
Proof. reflexivity. Qed.

(** C2. longest_streak >= current_streak in every StreakState the system
    produces, and in the pair it exposes; and from a state the system has
    produced both updating operations, the incremental update and the full
    recomputation, again give states in which it holds. *)
Theorem longest_streak_ge_current (sys : System) :
  reachable sys →
  (fst (getStreak sys) ≤ snd (getStreak sys))%nat ∧
  (∀ newDay today s,
     applyNewActivity (cache sys) newDay today = inl s →
     (current_streak s ≤ longest_streak s)%nat) ∧
  (∀ newDay today,
     (current_streak (cache (recordActivity sys newDay today))
      ≤ longest_streak (cache (recordActivity sys newDay today)))%nat) ∧
  (∀ days today,
     (current_streak (recompute days today)
      ≤ longest_streak (recompute days today))%nat).
Proof.
  intros Hsys. repeat split.
  - apply (reachable_ok sys Hsys).
  - intros newDay today s Hs.
    apply (applyNewActivity_ok _ _ _ _ (reachable_ok sys Hsys) Hs).
  - intros newDay today.
    apply (reachable_ok _ (reach_record sys newDay today Hsys)).
  - intros days today. apply recompute_ok.
Qed.

Lemma longest_streak_ge_current_witness :
  (fst (getStreak (recordActivity (recordActivity initial (jan 1) (jan 1)) (jan 2) (jan 2)))
   ≤ snd (getStreak (recordActivity (recordActivity initial (jan 1) (jan 1)) (jan 2) (jan 2))))%nat.
Proof.
  apply (longest_streak_ge_current
           (recordActivity (recordActivity initial (jan 1) (jan 1)) (jan 2) (jan 2))).
  apply reach_record, reach_record, reach_initial.
Defined.

Lemma fold_scan_run a run s :
  consecutive (a :: run) = true → prev s = Some a →
  counter (fold_left scan_step run s) = (counter s + length run)%nat.
Proof.
  revert a s. induction run as [|b run IH]; intros a s Hrun Hprev.
  - simpl. lia.
  - cbn [consecutive] in Hrun. apply andb_prop in Hrun as [Hb Hrun].
    cbn [fold_left]. rewrite (IH b); [|done|done].
    unfold scan_step. rewrite Hprev, Hb. simpl. lia.
Qed.

Lemma scan_trailing_run pre run :
  trailing_run pre run →
  counter (scan (pre ++ run)) = length run ∧
  prev (scan (pre ++ run)) = last run.
Proof.
  intros (Hne & Hrun & Hgap). destruct run as [|h run]; [done|].
  split.
  - unfold scan. rewrite fold_left_app. cbn [fold_left].
    rewrite (fold_scan_run h); [|done|done].
    pose proof (fold_scan_prev pre scan_start) as Hprev. simpl in Hgap.
    unfold scan_step at 1. cbn [counter]. rewrite Hprev.
    destruct (last pre) as [p|]; cbn [prev scan_start length]; [|lia].
    destruct (Z.eqb_spec h (p + 1)); [done|]. lia.
  - rewrite scan_prev, last_app.
    destruct (last (h :: run)) eqn:E; [done|]. by apply last_None in E.
Qed.

(** C3. The grace rule of the full recomputation: when the trailing
    consecutive run ends today or yesterday, current_streak is the length of
    that run; when it ends more than one day before today, current_streak
    is 0. In particular the days 1, 2, 3 January give 3 on 4 January and 0
    on 5 January. *)
Theorem compute_grace_period (pre run : list Z) (today l : Z) :
  trailing_run pre run →
  last run = Some l →
  (l = today ∨ l = today - 1 → fst (compute (pre ++ run) today) = length run) ∧
  (l < today - 1 → fst (compute (pre ++ run) today) = 0%nat) ∧
  fst (compute [jan 1; jan 2; jan 3] (jan 4)) = 3%nat ∧
  fst (compute [jan 1; jan 2; jan 3] (jan 5)) = 0%nat.
Proof.
  intros Hrun Hl. destruct (scan_trailing_run pre run Hrun) as [Hc Hp].
  unfold compute at 1 2. cbn [fst]. rewrite Hp, Hl, Hc.
  split; [|split; [|by vm_compute]].
  - intros [-> | ->].
    + by rewrite Z.eqb_refl.
    + by rewrite Z.eqb_refl, orb_true_r.
  - intros Hlt.
    destruct (Z.eqb_spec l today); [lia|].
    destruct (Z.eqb_spec l (today - 1)); [lia|]. done.
Qed.

Lemma compute_grace_period_witness :
  fst (compute ([jan 1] ++ [jan 3; jan 4]) (jan 5)) = 2%nat.
Proof.
  apply (compute_grace_period [jan 1] [jan 3; jan 4] (jan 5) (jan 4)).
  - split; [done|]. split; [reflexivity|]. vm_compute. discriminate.
  - reflexivity.
  - right. reflexivity.
Defined.

End streaks.

(** * More of the components *)

(** ** FriendsTab.js: what the leaderboard shows *)

Section leaderboard_more.
Import FriendsTab.

Local Abbreviation desc := (λ a b : Friend, compareStreak a b ≤ 0).
Local Abbreviation streak_is k := (λ f : Friend, current_streak f = k).

Lemma desc_streak (a b : Friend) : desc a b ↔ current_streak b ≤ current_streak a.
Proof. unfold compareStreak. lia. Qed.

Lemma sorted_split (l : list Friend) n :
  StronglySorted desc (take n (sort compareStreak l) ++ drop n (sort compareStreak l)).
Proof. rewrite take_drop. apply sort_sorted. Qed.

(** X1. The first row of the leaderboard holds a highest current streak of
    all friends. *)
Theorem rank_first_is_highest (friends : list Friend) (a b : Friend) :
  rank friends !! 0%nat = Some a →
  b ∈ friends →
  current_streak b ≤ current_streak a.
Proof.
  rewrite rank_eq. intros [Ha _]%lookup_take_Some Hb.
  rewrite <- (sort_perm friends) in Hb.
  apply list_elem_of_lookup in Hb as [j Hj].
  destruct j as [|j]; [by simplify_eq|].
  eapply (strongly_sorted_lookup _ 0 (S j)); [apply sort_sorted|done..|lia].
Qed.

Lemma rank_first_is_highest_witness :
  current_streak Samples.dan ≤ current_streak Samples.cleo.
Proof.
  apply (rank_first_is_highest [Samples.dan; Samples.ana; Samples.cleo; Samples.ben]).
  - reflexivity.
  - by apply (bool_decide_unpack _).
Defined.

(** X2. Nobody left off the leaderboard has a higher current streak than
    somebody on it. *)
Theorem rank_beats_the_rest (friends : list Friend) (a b : Friend) :
  a ∈ rank friends →
  b ∈ friends →
  b ∉ rank friends →
  current_streak b ≤ current_streak a.
Proof.
  rewrite rank_eq. intros Ha Hb Hnb.
  rewrite <- (sort_perm friends), <- (take_drop 3 (sort compareStreak friends)) in Hb.
  apply elem_of_app in Hb as [Hb|Hb]; [done|].
  apply desc_streak.
  by eapply (StronglySorted_app_1_elem_of desc _ _ a b (sorted_split friends 3)).
Qed.

Lemma rank_beats_the_rest_witness :
  current_streak Samples.dan ≤ current_streak Samples.ben.
Proof.
  apply (rank_beats_the_rest [Samples.dan; Samples.ana; Samples.cleo; Samples.ben]).
  - by apply (bool_decide_unpack _).
  - by apply (bool_decide_unpack _).
  - by apply (bool_decide_unpack _).
Defined.

(** X3. The leaderboard has three rows, or as many as there are friends
    when there are fewer, and its rows are friends of the array, none shown
    more often than the array holds it. *)
Theorem rank_rows (friends : list Friend) :
  length (rank friends) = (3 `min` length friends)%nat ∧
  rank friends ⊆+ friends.
Proof.
  rewrite rank_eq. split.
  - by rewrite length_take, (Permutation_length (sort_perm friends)).
  - rewrite <- (sort_perm friends) at 2. apply sublist_submseteq, sublist_take.
Qed.

(** X4. After one render the friends array has settled: it is in descending
    order of current streak, a further render leaves it as it is, and the
    friends list is then drawn in that order. *)
Theorem render_settles (friends : list Friend) :
  Sorted desc (friends_after friends) ∧
  render (friends_after friends)
  = (friends_after friends,
     {| buddies := friends_after friends; leaderboard := rank friends |}).
Proof.
  split.
  - rewrite friends_after_eq. apply StronglySorted_Sorted, sort_sorted.
  - rewrite friends_after_eq, rank_eq.
    pose proof (sort_idempotent friends) as Hs.
    destruct (sort compareStreak friends) as [|x t]; [done|].
    unfold render. cbv zeta. by rewrite Hs.
Qed.

Lemma streak_once (k : Z) (l : list Friend) :
  NoDup (current_streak <$> l) → (length (filter (streak_is k) l) ≤ 1)%nat.
Proof.
  induction l as [|x l IH]; [intros _; simpl; lia|].
  rewrite fmap_cons, NoDup_cons. intros [Hx Hl]. rewrite filter_cons.
  case_decide as Hk; [|by apply IH].
  destruct (filter (streak_is k) l) as [|y t] eqn:E; [simpl; lia|].
  exfalso. assert (y ∈ filter (streak_is k) l) as Hy by (rewrite E; left).
  apply list_elem_of_filter in Hy as [Hyk Hy]. apply Hx.
  rewrite Hk, <- Hyk. by apply list_elem_of_fmap_2.
Qed.

(** X5. When no two friends have the same current streak, the leaderboard
    does not depend on the order in which the friends arrive. *)
Theorem rank_ignores_arrival_order (friends friends' : list Friend) :
  friends ≡ₚ friends' →
  NoDup (current_streak <$> friends) →
  rank friends = rank friends'.
Proof.
  intros Hperm Hnodup. rewrite !rank_eq. f_equal.
  apply sorted_stable_unique; [apply sort_sorted..|].
  intros k. rewrite !sort_stable.
  assert (filter (streak_is k) friends ≡ₚ filter (streak_is k) friends') as Hf
    by by rewrite Hperm.
  pose proof (streak_once k friends Hnodup) as Hlen.
  destruct (filter (streak_is k) friends) as [|x [|??]]; simpl in Hlen; [| |lia].
  - by apply Permutation_nil_l in Hf.
  - by apply Permutation_singleton_l in Hf.
Qed.

Lemma rank_ignores_arrival_order_witness :
  rank [Samples.dan; Samples.ana; Samples.cleo]
  = rank [Samples.cleo; Samples.dan; Samples.ana].
Proof.
  apply rank_ignores_arrival_order.
  - by apply (bool_decide_unpack _).
  - by apply (bool_decide_unpack _).
Defined.

(** X6. The badge on a friend's card depends on the current streak by
    bands: the trophy from 30 days, the flame from 14, the bolt from 7, the
    arm from 3, and the seedling below 3, zero and negative values
    included. *)
Theorem getStreakEmoji_bands (streak : Z) :
  (getStreakEmoji streak = "🏆" ↔ 30 ≤ streak) ∧
  (getStreakEmoji streak = "🔥" ↔ 14 ≤ streak < 30) ∧
  (getStreakEmoji streak = "⚡" ↔ 7 ≤ streak < 14) ∧
  (getStreakEmoji streak = "💪" ↔ 3 ≤ streak < 7) ∧
  (getStreakEmoji streak = "🌱" ↔ streak < 3).
Proof.
  unfold getStreakEmoji.
  repeat match goal with
         | |- context [Z.leb ?a ?b] => destruct (Z.leb_spec a b)
         end;
    repeat split; intros; try lia; done.
Qed.

End leaderboard_more.

(** ** StreakCalendar.js: the grid of the month *)

Section calendar_more.
Import StreakCalendar.

Variable parseDate : string → option Z.
Variables dayOf midnight : Z → Z.
Variables startOfMonth endOfMonth : Z → Z.
Variable getDay : Z → Z.
Hypothesis dayOf_midnight : ∀ d, dayOf (midnight d) = d.
Hypothesis getDay_range : ∀ t, 0 ≤ getDay t < 7.
Hypothesis getDay_next :
  ∀ d, getDay (midnight (d + 1)) = (getDay (midnight d) + 1) `mod` 7.

Local Abbreviation days m := (getDaysInMonth dayOf midnight startOfMonth endOfMonth m).
Local Abbreviation cells acts m today :=
  (calendar parseDate dayOf midnight startOfMonth endOfMonth acts m today).
Local Abbreviation on_day d :=
  (λ activity : Activity, isSameDay dayOf midnight (parseDate (date activity)) (Some d)).

Lemma days_lookup m (i : nat) d :
  days m !! i = Some d → d = midnight (dayOf (startOfMonth m) + Z.of_nat i).
Proof.
  unfold getDaysInMonth, eachDayOfInterval. rewrite list_lookup_fmap.
  intros [k [Hk ->]]%fmap_Some. apply lookup_seqZ in Hk as [-> _]. done.
Qed.

Lemma cells_lookup acts m today (i : nat) c :
  cells acts m today !! i = Some c →
  ∃ d, days m !! i = Some d ∧ day c = d ∧
       hasActivity c = hasActivityOnDate parseDate dayOf midnight acts d ∧
       dayActivities c = getActivitiesForDate parseDate dayOf midnight acts d.
Proof.
  unfold calendar. rewrite list_lookup_fmap.
  intros [d [Hd ->]]%fmap_Some. by exists d.
Qed.

Lemma existsb_filter_length {A} (p : A → bool) (l : list A) :
  existsb p l = true ↔ (0 < length (List.filter p l))%nat.
Proof.
  induction l as [|x l IH]; simpl; [split; [done|lia]|].
  destruct (p x); simpl; [split; [lia|done]|done].
Qed.

(** X7. The marker and the tooltip of a cell agree: a cell is drawn as
    having activity exactly when its tooltip is not empty, and the tooltip
    then counts at least one and at most all of the activities, with one
    type named for each. *)
Theorem marker_matches_tooltip (activities : list Activity)
    (currentMonth today : Z) (i : nat) (c : Cell) :
  cells activities currentMonth today !! i = Some c →
  (hasActivity c = true ↔ is_Some (title c)) ∧
  (cellClass c = HasActivityClass ↔ is_Some (title c)) ∧
  (∀ n types, title c = Some (n, types) →
     (0 < n ≤ length activities)%nat ∧ length types = n).
Proof.
  intros (d & _ & _ & Hhas & Hacts)%cells_lookup.
  assert (hasActivity c = true ↔ is_Some (title c)) as Hiff.
  { rewrite Hhas. unfold hasActivityOnDate, title.
    rewrite existsb_filter_length, Hacts. unfold getActivitiesForDate.
    destruct (Nat.ltb_spec 0 (length (List.filter (on_day d) activities)));
      split; intros Hyes; try lia; [by eexists | by destruct Hyes as [? ?]]. }
  split; [done|]. split.
  - rewrite <- Hiff. unfold cellClass.
    destruct (hasActivity c); [done|]. by destruct (isToday c).
  - intros n types. unfold title.
    destruct (Nat.ltb_spec 0 (length (dayActivities c))) as [Hpos|]; [|done].
    intros [= <- <-]. rewrite length_fmap. split; [|done]. split; [done|].
    rewrite Hacts. unfold getActivitiesForDate.
    rewrite <- (List.filter_length (on_day d) activities). apply Nat.le_add_r.
Qed.

(** X8. No activity is counted under two days of the month: the
    activities listed for two different cells have nothing in common. *)
Theorem no_activity_in_two_cells (activities : list Activity)
    (currentMonth today : Z) (i j : nat) (ci cj : Cell) (activity : Activity) :
  cells activities currentMonth today !! i = Some ci →
  cells activities currentMonth today !! j = Some cj →
  i ≠ j →
  activity ∈ dayActivities ci →
  activity ∉ dayActivities cj.
Proof.
  intros (di & Hdi & _ & _ & Hai)%cells_lookup (dj & Hdj & _ & _ & Haj)%cells_lookup.
  intros Hij. rewrite Hai, Haj. unfold getActivitiesForDate.
  rewrite !list_elem_of_In, !filter_In.
  intros [_ Hi] [_ Hj].
  apply (isSameDay_true dayOf midnight dayOf_midnight) in Hi as (t & d & Ht & [= <-] & Hti).
  apply (isSameDay_true dayOf midnight dayOf_midnight) in Hj as (t' & d' & Ht' & [= <-] & Htj).
  rewrite Ht in Ht'. injection Ht' as <-.
  apply days_lookup in Hdi, Hdj. subst di dj.
  rewrite dayOf_midnight in Hti, Htj. lia.
Qed.

Lemma getDay_add s (k : nat) :
  getDay (midnight (s + Z.of_nat k)) = (getDay (midnight s) + Z.of_nat k) `mod` 7.
Proof.
  induction k as [|k IH].
  - rewrite !Z.add_0_r. symmetry. apply Z.mod_small, getDay_range.
  - replace (s + Z.of_nat (S k)) with (s + Z.of_nat k + 1) by lia.
    rewrite getDay_next, IH, Z.add_mod_idemp_l by lia. f_equal. lia.
Qed.

(** X9. Every day of the month is drawn in the column of its weekday: the
    empty cells put before the first day shift the day at index [i] into
    column [getDay] of that day. *)
Theorem day_under_its_weekday (currentMonth : Z) (i : nat) (d : Z) :
  days currentMonth !! i = Some d →
  gridColumn getDay (days currentMonth) i = Some (getDay d).
Proof.
  intros Hd. unfold gridColumn, leadingBlanks.
  destruct (days currentMonth) as [|d0 rest] eqn:E; [done|].
  assert (days currentMonth !! 0%nat = Some d0) as H0 by by rewrite E.
  rewrite <- E in Hd. apply days_lookup in Hd, H0. subst d d0. simpl.
  rewrite Z.add_0_r. by rewrite getDay_add.
Qed.

(** X16. At most one cell of the month is marked as today: two different
    cells are never both today's. *)
Theorem one_cell_is_today (activities : list Activity)
    (currentMonth today : Z) (i j : nat) (ci cj : Cell) :
  cells activities currentMonth today !! i = Some ci →
  cells activities currentMonth today !! j = Some cj →
  isToday ci = true →
  isToday cj = true →
  i = j.
Proof.
  unfold calendar. rewrite !list_lookup_fmap.
  intros [di [Hdi ->]]%fmap_Some [dj [Hdj ->]]%fmap_Some. cbn [isToday].
  intros (a & b & [= <-] & [= <-] & Hi)%(isSameDay_true dayOf midnight dayOf_midnight).
  intros (a & b & [= <-] & [= <-] & Hj)%(isSameDay_true dayOf midnight dayOf_midnight).
  apply days_lookup in Hdi, Hdj. subst di dj.
  rewrite dayOf_midnight in Hi, Hj. lia.
Qed.

End calendar_more.

Lemma utc_getDay_next (d : Z) :
  Samples.utc_getDay (Samples.utc_midnight (d + 1))
  = (Samples.utc_getDay (Samples.utc_midnight d) + 1) `mod` 7.
Proof.
  unfold Samples.utc_getDay, Samples.utc_midnight.
  rewrite !Z.div_mul, Z.add_mod_idemp_l by lia. f_equal. lia.
Qed.

Lemma utc_dayOf_midnight (d : Z) :
  Samples.utc_dayOf (Samples.utc_midnight d) = d.
Proof. unfold Samples.utc_dayOf, Samples.utc_midnight. apply Z.div_mul. lia. Qed.

Lemma marker_matches_tooltip_witness :
  StreakCalendar.hasActivity Samples.jan2_cell = true
  ↔ is_Some (StreakCalendar.title Samples.jan2_cell).
Proof.
  exact (proj1 (marker_matches_tooltip Samples.parse_sample Samples.utc_dayOf
                  Samples.utc_midnight Samples.january_start Samples.january_end
                  Samples.activities 1704182400000 1704300000000 1%nat
                  Samples.jan2_cell eq_refl)).
Defined.

Lemma no_activity_in_two_cells_witness :
  Samples.morning_run ∉ StreakCalendar.dayActivities Samples.jan3_cell.
Proof.
  apply (no_activity_in_two_cells Samples.parse_sample Samples.utc_dayOf
           Samples.utc_midnight Samples.january_start Samples.january_end
           utc_dayOf_midnight Samples.activities 1704182400000 1704300000000
           1%nat 2%nat Samples.jan2_cell Samples.jan3_cell).
  - reflexivity.
  - reflexivity.
  - lia.
  - by apply (bool_decide_unpack _).
Defined.

Lemma one_cell_is_today_witness : 2%nat = 2%nat.
Proof.
  apply (one_cell_is_today Samples.parse_sample Samples.utc_dayOf
           Samples.utc_midnight Samples.january_start Samples.january_end
           utc_dayOf_midnight Samples.activities 1704182400000 1704300000000
           2%nat 2%nat Samples.jan3_cell Samples.jan3_cell);
    reflexivity.
Defined.

Lemma day_under_its_weekday_witness :
  StreakCalendar.gridColumn Samples.utc_getDay
    (StreakCalendar.getDaysInMonth Samples.utc_dayOf Samples.utc_midnight
       Samples.january_start Samples.january_end 1704182400000) 1%nat
  = Some (Samples.utc_getDay 1704153600000).
Proof.
  apply (day_under_its_weekday Samples.utc_dayOf Samples.utc_midnight
           Samples.january_start Samples.january_end Samples.utc_getDay).
  - intros t. apply Z.mod_pos_bound. lia.
  - exact utc_getDay_next.
  - reflexivity.
Defined.

(** 2 January 2024, a Tuesday, is drawn in column 2. *)
Example january_second_column :
  StreakCalendar.gridColumn Samples.utc_getDay
    (StreakCalendar.getDaysInMonth Samples.utc_dayOf Samples.utc_midnight
       Samples.january_start Samples.january_end 1704182400000) 1%nat
  = Some 2.
Proof. by vm_compute. Qed.

(** ** StreakCalendar.js: moving between months *)

Section months.
Import StreakCalendar.

Lemma newDate_plain (year monthIndex : Z) :
  99 < year → newDate year monthIndex = (year + monthIndex `div` 12, monthIndex `mod` 12).
Proof.
  intros Hy. unfold newDate.
  destruct (Z.leb_spec 0 year), (Z.leb_spec year 99); simpl; try done; lia.
Qed.

Lemma previousMonth_value (year month : Z) :
  100 < year → 0 ≤ month ≤ 11 →
  previousMonth (year, month)
  = if month =? 0 then (year - 1, 11) else (year, month - 1).
Proof.
  intros Hy Hm. unfold previousMonth. cbn [fst snd].
  rewrite newDate_plain by lia.
  destruct (Z.eqb_spec month 0) as [->|]; [done|].
  rewrite Z.div_small, Z.mod_small by lia. f_equal. lia.
Qed.

Lemma nextMonth_value (year month : Z) :
  99 < year → 0 ≤ month ≤ 11 →
  nextMonth (year, month)
  = if month =? 11 then (year + 1, 0) else (year, month + 1).
Proof.
  intros Hy Hm. unfold nextMonth. cbn [fst snd].
  rewrite newDate_plain by lia.
  destruct (Z.eqb_spec month 11) as [->|]; [done|].
  rewrite Z.div_small, Z.mod_small by lia. f_equal. lia.
Qed.

(** X10. For the years after 100 (and within the range of dates), moving to
    the previous month and then to the next, or the other way round, comes
    back to the same year and month; January steps back to December of the
    year before and December forward to January of the year after. *)
Theorem month_navigation_round_trip (year month : Z) :
  100 < year < 275000 →
  0 ≤ month ≤ 11 →
  nextMonth (previousMonth (year, month)) = (year, month) ∧
  previousMonth (nextMonth (year, month)) = (year, month) ∧
  previousMonth (year, 0) = (year - 1, 11) ∧
  nextMonth (year, 11) = (year + 1, 0).
Proof.
  intros Hy Hm.
  rewrite !previousMonth_value, !nextMonth_value by lia.
  repeat split; try done.
  - destruct (Z.eqb_spec month 0) as [->|].
    + rewrite nextMonth_value by lia. simpl. f_equal. lia.
    + rewrite nextMonth_value by lia.
      destruct (Z.eqb_spec (month - 1) 11); [lia|]. f_equal. lia.
  - destruct (Z.eqb_spec month 11) as [->|].
    + rewrite previousMonth_value by lia. simpl. f_equal. lia.
    + rewrite previousMonth_value by lia.
      destruct (Z.eqb_spec (month + 1) 0); [lia|]. f_equal. lia.
Qed.

Lemma month_navigation_round_trip_witness :
  nextMonth (previousMonth (2024, 0)) = (2024, 0).
Proof.
  apply (month_navigation_round_trip 2024 0); lia.
Defined.

(** Below the year 100 the round trip can fail: from December 99 the next
    month is January 2000. *)
Example next_month_of_december_99 : nextMonth (99, 11) = (2000, 0).
Proof. reflexivity. Qed.

End months.

(** ** Dashboard.js: relative dates *)

Section relative_dates.
Import Dashboard.

(** X11. The relative date of an activity depends on the time elapsed
    since it, in bands: less than an hour (or a date in the future) reads
    "Just now"; from one hour to less than 24 the whole hours elapsed; from 24
    to less than 48 hours "Yesterday"; from 2 to less than 7 days the whole
    days elapsed; from 7 days on the locale date. An invalid date falls
    through to the locale date. *)
Theorem formatDate_bands (now t : Z) :
  let elapsed := now - t in
  (formatDate now (Some t) = JustNow ↔ elapsed < 3600000) ∧
  (∀ h, formatDate now (Some t) = HoursAgo h ↔
        h = elapsed `div` 3600000 ∧ (3600000 ≤ elapsed < 86400000)) ∧
  (formatDate now (Some t) = Yesterday ↔ 86400000 ≤ elapsed < 172800000) ∧
  (∀ d, formatDate now (Some t) = DaysAgo d ↔
        d = elapsed `div` 86400000 ∧ (172800000 ≤ elapsed < 604800000)) ∧
  (formatDate now (Some t) = LocaleDate ↔ 604800000 ≤ elapsed) ∧
  formatDate now None = LocaleDate.
Proof.
  intros elapsed. unfold formatDate. fold elapsed.
  change (1000 * 60 * 60) with 3600000.
  assert ((elapsed `div` 3600000) `div` 24 = elapsed `div` 86400000) as Hdays
    by (rewrite Z.div_div by lia; done).
  rewrite Hdays.
  pose proof (Z.div_mod elapsed 3600000 ltac:(lia)) as Hh.
  pose proof (Z.mod_pos_bound elapsed 3600000 ltac:(lia)) as Hhr.
  pose proof (Z.div_mod elapsed 86400000 ltac:(lia)) as Hd.
  pose proof (Z.mod_pos_bound elapsed 86400000 ltac:(lia)) as Hdr.
  destruct (Z.ltb_spec (elapsed `div` 3600000) 1);
    [|destruct (Z.ltb_spec (elapsed `div` 3600000) 24);
      [|destruct (Z.eqb_spec (elapsed `div` 86400000) 1);
        [|destruct (Z.ltb_spec (elapsed `div` 86400000) 7)]]];
    repeat split; intros; destruct_and?; simplify_eq; try done; try lia.
Qed.

End relative_dates.

(** ** Icons, colours and the logger form *)

Section tables_more.
Import Js.

Ltac case_type :=
  match goal with
  | |- context [String.eqb ?t ?k] => destruct (String.eqb_spec t k) as [->|?]
  | H : context [String.eqb ?t ?k] |- _ => destruct (String.eqb_spec t k) as [->|?]
  end.

Lemma getActivityColor_eq type :
  Dashboard.getActivityColor type
  = Icons.getActivityIcon "bg-purple-100 text-purple-800" "bg-blue-100 text-blue-800"
      "bg-green-100 text-green-800" "bg-pink-100 text-pink-800"
      "bg-gray-100 text-gray-800" type.
Proof. reflexivity. Qed.

Lemma getActivityIcon_table gym run walk yoga fallback type :
  gym ≠ "" → run ≠ "" → walk ≠ "" → yoga ≠ "" →
  type ∉ object_prototype →
  Icons.getActivityIcon gym run walk yoga fallback type
  = Str (if String.eqb type "gym" then gym
         else if String.eqb type "run" then run
         else if String.eqb type "walk" then walk
         else if String.eqb type "yoga" then yoga
         else fallback).
Proof.
  intros Hg Hr Hw Hy Hproto. unfold Icons.getActivityIcon, get.
  rewrite icons_lookup.
  repeat (case_type; [simpl; by rewrite (proj2 (String.eqb_neq _ _))|]).
  by rewrite decide_False.
Qed.

Lemma tables_outside_prototype (type : string) :
  type ∉ object_prototype →
  StreakCalendarIcons.getActivityIcon type
  = Str (if String.eqb type "gym" then StreakCalendarIcons.gym
         else if String.eqb type "run" then StreakCalendarIcons.run
         else if String.eqb type "walk" then StreakCalendarIcons.walk
         else if String.eqb type "yoga" then StreakCalendarIcons.yoga
         else StreakCalendarIcons.run) ∧
  DashboardIcons.getActivityIcon type
  = Str (if String.eqb type "gym" then DashboardIcons.gym
         else if String.eqb type "run" then DashboardIcons.run
         else if String.eqb type "walk" then DashboardIcons.walk
         else if String.eqb type "yoga" then DashboardIcons.yoga
         else DashboardIcons.run) ∧
  Dashboard.getActivityColor type
  = Str (if String.eqb type "gym" then "bg-purple-100 text-purple-800"
         else if String.eqb type "run" then "bg-blue-100 text-blue-800"
         else if String.eqb type "walk" then "bg-green-100 text-green-800"
         else if String.eqb type "yoga" then "bg-pink-100 text-pink-800"
         else "bg-gray-100 text-gray-800").
Proof.
  intros Hproto. rewrite getActivityColor_eq.
  unfold StreakCalendarIcons.getActivityIcon, DashboardIcons.getActivityIcon.
  by rewrite !getActivityIcon_table.
Qed.

(** X12. For every type that is not the name of a member inherited from
    [Object.prototype], the icon and the colour are plain table lookups: the
    entry of gym, run, walk or yoga, and the default for every other type
    (for icons, the same picture as for run). *)
Theorem icon_and_colour_lookup (type : string) :
  type ∉ object_prototype →
  StreakCalendarIcons.getActivityIcon type
  = Str (if String.eqb type "gym" then StreakCalendarIcons.gym
         else if String.eqb type "run" then StreakCalendarIcons.run
         else if String.eqb type "walk" then StreakCalendarIcons.walk
         else if String.eqb type "yoga" then StreakCalendarIcons.yoga
         else StreakCalendarIcons.run) ∧
  DashboardIcons.getActivityIcon type
  = Str (if String.eqb type "gym" then DashboardIcons.gym
         else if String.eqb type "run" then DashboardIcons.run
         else if String.eqb type "walk" then DashboardIcons.walk
         else if String.eqb type "yoga" then DashboardIcons.yoga
         else DashboardIcons.run) ∧
  Dashboard.getActivityColor type
  = Str (if String.eqb type "gym" then "bg-purple-100 text-purple-800"
         else if String.eqb type "run" then "bg-blue-100 text-blue-800"
         else if String.eqb type "walk" then "bg-green-100 text-green-800"
         else if String.eqb type "yoga" then "bg-pink-100 text-pink-800"
         else "bg-gray-100 text-gray-800").
Proof. apply tables_outside_prototype. Qed.

Lemma icon_and_colour_lookup_witness :
  Dashboard.getActivityColor "swim" = Str "bg-gray-100 text-gray-800".
Proof.
  apply (icon_and_colour_lookup "swim"). by apply (bool_decide_unpack _).
Defined.

(** X13. Every activity type the logger form offers is known to the other
    tables: it has a calorie rate, so that a positive duration gives a
    positive estimate, an icon in both icon tables, and a colour other than
    the default grey. *)
Theorem offered_types_are_known (type : string) (duration : Z) :
  type ∈ ActivityLogger.activityTypes →
  0 < duration →
  (∃ calories, ActivityLogger.getEstimatedCalories type (Fin duration) = Fin calories
               ∧ 0 < calories) ∧
  (∃ icon, StreakCalendarIcons.getActivityIcon type = Str icon ∧ icon ≠ "") ∧
  (∃ icon, DashboardIcons.getActivityIcon type = Str icon ∧ icon ≠ "") ∧
  (∃ colour, Dashboard.getActivityColor type = Str colour
             ∧ colour ≠ "bg-gray-100 text-gray-800").
Proof.
  intros Htype Hpos.
  assert (type = "gym" ∨ type = "run" ∨ type = "walk" ∨ type = "yoga") as Hcases.
  { unfold ActivityLogger.activityTypes in Htype.
    rewrite !elem_of_cons, elem_of_nil in Htype. tauto. }
  assert (type ∉ object_prototype) as Hproto
    by (destruct Hcases as [-> | [-> | [-> | ->]]]; by apply (bool_decide_unpack _)).
  split.
  { assert (∃ r, ActivityLogger.rate type = Some r ∧ 0 < r) as (r & Hr & Hrpos)
      by (destruct Hcases as [-> | [-> | [-> | ->]]];
          eexists; (split; [reflexivity|lia])).
    rewrite getEstimatedCalories_value, Hr. eexists. split; [done|].
    apply round64_pos. by apply Z.mul_pos_pos. }
  destruct (tables_outside_prototype type Hproto) as (-> & -> & ->).
  destruct Hcases as [-> | [-> | [-> | ->]]]; simpl; repeat split; by eexists.
Qed.

Lemma offered_types_are_known_witness :
  ∃ calories, ActivityLogger.getEstimatedCalories "yoga" (Fin 20) = Fin calories
              ∧ 0 < calories.
Proof.
  apply (offered_types_are_known "yoga" 20); [|lia].
  by apply (bool_decide_unpack _).
Defined.

Section form.
Variable parseInt : string → num.

(** X14. Whatever the fields hold and whatever [parseInt] makes of the
    duration, the estimate is a number, never NaN; it is 0 when either field
    is empty, when the duration does not parse, and when the type has no
    rate. *)
Theorem estimatedCalories_is_a_number (activity_type duration_minutes : string) :
  (∃ calories,
     ActivityLogger.estimatedCalories parseInt activity_type duration_minutes
     = Fin calories) ∧
  (activity_type = "" ∨ duration_minutes = "" ∨ parseInt duration_minutes = NaN
   ∨ ActivityLogger.rate activity_type = None →
   ActivityLogger.estimatedCalories parseInt activity_type duration_minutes = Fin 0).
Proof.
  unfold ActivityLogger.estimatedCalories, truthy_string.
  destruct (String.eqb_spec activity_type "") as [->|Ht];
    [split; [by eexists|done]|].
  destruct (String.eqb_spec duration_minutes "") as [->|Hd];
    [split; [by eexists|done]|].
  simpl. unfold or_num.
  destruct (parseInt duration_minutes) as [|d] eqn:Hp; simpl.
  - rewrite getEstimatedCalories_value. split; [by eexists|].
    intros _. destruct (ActivityLogger.rate activity_type); [|done].
    by rewrite Z.mul_0_r, round64_0.
  - destruct (Z.eqb_spec d 0) as [->|Hd0]; simpl;
      rewrite getEstimatedCalories_value; (split; [by eexists|]).
    + intros _. destruct (ActivityLogger.rate activity_type); [|done].
      by rewrite Z.mul_0_r, round64_0.
    + intros [?|[?|[?|Hrate]]]; try done. by rewrite Hrate.
Qed.

(** X15. When the estimate line is shown, the type has a rate, the duration
    parses to a positive number of minutes, the estimate is their product as
    the code computes it on doubles (the exact product wherever that is below
    2^53, the double nearest to it beyond), and the submit button is not
    held back by an empty field (only while a submission is under way). *)
Theorem shown_estimate (activity_type duration_minutes : string) :
  ActivityLogger.showsEstimate parseInt activity_type duration_minutes = true →
  ∃ rate minutes,
    ActivityLogger.rate activity_type = Some rate ∧
    parseInt duration_minutes = Fin minutes ∧
    0 < rate ∧ 0 < minutes ∧
    ActivityLogger.estimatedCalories parseInt activity_type duration_minutes
    = mul (Fin rate) (Fin minutes) ∧
    ActivityLogger.estimatedCalories parseInt activity_type duration_minutes
    = Fin (round64 (rate * minutes)) ∧
    (rate * minutes < 2 ^ 53 →
     ActivityLogger.estimatedCalories parseInt activity_type duration_minutes
     = Fin (rate * minutes)) ∧
    ∀ loading,
      ActivityLogger.submitDisabled loading activity_type duration_minutes = loading.
Proof.
  unfold ActivityLogger.showsEstimate, ActivityLogger.estimatedCalories,
    ActivityLogger.submitDisabled.
  destruct (truthy_string activity_type); [|done].
  destruct (truthy_string duration_minutes); [|done]. cbn [andb negb orb].
  unfold or_num.
  destruct (parseInt duration_minutes) as [|d]; cbn [truthy_num].
  - rewrite getEstimatedCalories_value.
    destruct (ActivityLogger.rate activity_type); [|done].
    by rewrite Z.mul_0_r, round64_0.
  - assert (ActivityLogger.getEstimatedCalories activity_type
              (if negb (d =? 0) then Fin d else Fin 0)
            = ActivityLogger.getEstimatedCalories activity_type (Fin d)) as ->.
    { destruct (Z.eqb_spec d 0) as [->|]; done. }
    rewrite getEstimatedCalories_value.
    destruct (ActivityLogger.rate activity_type) as [r|] eqn:Hrate; [|done].
    cbn [gt]. intros Hgt%Z.ltb_lt. apply (proj1 (round64_pos _)) in Hgt.
    assert (0 < r) as Hr
      by (destruct (rate_values _ r Hrate) as [-> | [-> | [-> | ->]]]; lia).
    exists r, d. split; [done|]. split; [done|]. split; [done|].
    split; [nia|]. split; [by rewrite (mul_rate _ r d Hrate)|]. split; [done|].
    split.
    + intros Hsmall. rewrite round64_small; [done|]. rewrite Z.abs_eq; nia.
    + intros loading. by rewrite !orb_false_r.
Qed.

End form.

Lemma shown_estimate_witness :
  ∃ rate minutes,
    ActivityLogger.rate "run" = Some rate ∧
    Samples.parse_minutes "30" = Fin minutes ∧
    0 < rate ∧ 0 < minutes ∧
    ActivityLogger.estimatedCalories Samples.parse_minutes "run" "30"
    = mul (Fin rate) (Fin minutes) ∧
    ActivityLogger.estimatedCalories Samples.parse_minutes "run" "30"
    = Fin (round64 (rate * minutes)) ∧
    (rate * minutes < 2 ^ 53 →
     ActivityLogger.estimatedCalories Samples.parse_minutes "run" "30"
     = Fin (rate * minutes)) ∧
    ∀ loading, ActivityLogger.submitDisabled loading "run" "30" = loading.
Proof.
  apply (shown_estimate Samples.parse_minutes "run" "30"). reflexivity.
Defined.

(** A duration of 3002399751580331 minutes of running shows the double
    nearest to the product, 36028797018963968, not 36028797018963972. *)
Example shown_estimate_beyond_2_53 :
  ActivityLogger.estimatedCalories (λ _, Fin 3002399751580331) "run" "3002399751580331"
  = Fin 36028797018963968.
Proof. by vm_compute. Qed.

(** A negative duration gives a negative estimate, which is a number but is
    not shown. *)
Example negative_estimate :
  ActivityLogger.estimatedCalories Samples.parse_minutes "run" "-5" = Fin (-60) ∧
  ActivityLogger.showsEstimate Samples.parse_minutes "run" "-5" = false.
Proof. by vm_compute. Qed.

End tables_more.
